(** * Date tools: timezone policy and relative-time text

    A shallow embedding of [datetools.py]: [date_now], [convert_date],
    [get_midnight] and [delta_as_text], together with the properties the
    specification states about them.

    The module is orchestration around four collaborators that live outside
    the repository: the zone provider (Django's [django.utils.timezone] on top
    of pytz), dateutil's fuzzy parser, dateutil's [relativedelta] and Django's
    [ungettext].  Zones are records of their offset rules; the parser, the
    calendar-delta calculator, the plural chooser, [strftime] and the clock are
    fields of an environment [Env] over which every theorem quantifies. *)

From Stdlib Require Import ZArith String Ascii List Bool Lia DecimalString.
Import ListNotations.

Local Open Scope Z_scope.
Local Open Scope string_scope.

(** ** Outcomes of a Python call *)

(** The exception classes that occur in the module or in the collaborators'
    documented behaviour.  [InvalidTimeError] is pytz's base class of
    [AmbiguousTimeError] and [NonExistentTimeError]. *)
Inductive exn : Type :=
| KeyError
| ValueError
| TypeError
| AttributeError
| InvalidTimeError.

(** A call either returns a value or raises. *)
Inductive result (A : Type) : Type :=
| Ret (a : A)
| Raise (e : exn).

Arguments Ret {A} a.
Arguments Raise {A} e.

Definition bind {A B : Type} (r : result A) (k : A -> result B) : result B :=
  match r with
  | Ret a => k a
  | Raise e => Raise e
  end.

Notation "x <- r ;; k" := (bind r (fun x => k))
  (at level 61, r at next level, right associativity).

(** [try: body / except KeyError: handler]: only [KeyError] is intercepted,
    every other exception leaves the block unchanged. *)
Definition try_except_KeyError {A : Type} (body handler : result A) : result A :=
  match body with
  | Raise KeyError => handler
  | other => other
  end.

(** ** Python strings *)

Definition lower_ascii (c : ascii) : ascii :=
  let n := nat_of_ascii c in
  if ((65 <=? n)%nat && (n <=? 90)%nat)%bool then ascii_of_nat (n + 32) else c.

(** [s.lower()] on byte strings: the letters A..Z are folded, every other
    byte is kept. *)
Fixpoint lower (s : string) : string :=
  match s with
  | EmptyString => EmptyString
  | String c rest => String (lower_ascii c) (lower rest)
  end.

(** [needle in hay] for two strings: [needle] occurs as a substring. *)
Fixpoint str_in (needle hay : string) : bool :=
  prefix needle hay
  || match hay with
     | EmptyString => false
     | String _ rest => str_in needle rest
     end.

(** [s in (a, b, ...)] for a tuple of strings. *)
Definition str_in_tuple (s : string) (options : list string) : bool :=
  existsb (String.eqb s) options.

(** [str(n)] and the [%d] conversion of an integer. *)
Definition str_of_int (n : Z) : string := NilZero.string_of_int (Z.to_int n).

(** [template % {"count": n}] for templates whose only conversion specifier
    is [%(count)d], the form of every msgid of this module: each occurrence
    is replaced by the decimal rendering of [n].  [skip] counts the
    characters of a specifier that is being consumed. *)
Fixpoint percent_count_from (skip : nat) (template : string) (n : Z) : string :=
  match template with
  | EmptyString => EmptyString
  | String c rest =>
      match skip with
      | S k => percent_count_from k rest n
      | O =>
          if prefix "%(count)d" template
          then str_of_int n ++ percent_count_from 8 rest n
          else String c (percent_count_from 0 rest n)
      end
  end.

Definition percent_count (template : string) (n : Z) : string :=
  percent_count_from 0 template n.

(** ** Zones and timestamps *)

(** One microsecond is the unit of every clock reading and offset. *)
Definition SECOND : Z := 1000000.
Definition MINUTE : Z := 60 * SECOND.
Definition HOUR : Z := 60 * MINUTE.
Definition DAY : Z := 24 * HOUR.

(** A zone object as the module uses it.
    - [tz_str]: what [str(tz)] gives (pytz: the zone name).
    - [utcoffset]: the UTC offset in force at a UTC instant; this is what
      [fromutc] applies, so it covers daylight-saving rules.
    - [localize]: the offset chosen when a naive clock reading is tagged with
      the zone.  Django's [make_aware] calls pytz's
      [localize(value, is_dst=None)], which raises for a reading that is
      ambiguous or does not exist in the zone.
    - [has_normalize]: whether the object offers pytz's [normalize]. *)
Record zone : Type := mkZone {
  tz_str : string;
  utcoffset : Z -> Z;
  localize : Z -> result Z;
  has_normalize : bool
}.

(** A [datetime]: the clock reading, counted in microseconds on the proleptic
    Gregorian calendar so that [wall / DAY] is [toordinal()], and the attached
    zone with the offset in force ([None] for a naive value).  The range
    0001..9999 of CPython's type is not modelled. *)
Record datetime : Type := mkDt {
  wall : Z;
  tzinfo : option (zone * Z)
}.

Definition toordinal (d : datetime) : Z := wall d / DAY.
Definition time_of_day (d : datetime) : Z := wall d mod DAY.
Definition hour (d : datetime) : Z := time_of_day d / HOUR.
Definition minute (d : datetime) : Z := (time_of_day d mod HOUR) / MINUTE.
Definition second (d : datetime) : Z := (time_of_day d mod MINUTE) / SECOND.
Definition microsecond (d : datetime) : Z := time_of_day d mod SECOND.

(** The calendar date ([year], [month], [day]) is a function of [toordinal];
    the clock reading is the date together with the time fields. *)
Definition clock_reading (d : datetime) : Z * Z * Z * Z * Z :=
  (toordinal d, hour d, minute d, second d, microsecond d).

Definition zone_of (d : datetime) : option zone :=
  match tzinfo d with
  | Some (z, _) => Some z
  | None => None
  end.

(** The absolute instant an aware value denotes, as a UTC clock reading. *)
Definition instant (d : datetime) : option Z :=
  match tzinfo d with
  | Some (_, o) => Some (wall d - o)
  | None => None
  end.

(** [django.utils.timezone.is_naive]. *)
Definition is_naive (d : datetime) : bool :=
  match tzinfo d with
  | Some _ => false
  | None => true
  end.

(** [tz.fromutc]: the value of zone [z] that denotes the UTC reading [u]. *)
Definition fromutc (z : zone) (u : Z) : datetime :=
  mkDt (u + utcoffset z u) (Some (z, utcoffset z u)).

(** [d.astimezone(z)]; a naive [d] is refused with [ValueError], as Python 2
    does and as Django's [localtime] does for a naive value. *)
Definition astimezone (d : datetime) (z : zone) : result datetime :=
  match instant d with
  | Some u => Ret (fromutc z u)
  | None => Raise ValueError
  end.

(** pytz's [z.normalize(d)]: [d] is taken back to UTC with the offset it
    carries and re-expressed under the rules of [z]. *)
Definition normalize (z : zone) (d : datetime) : result datetime :=
  match instant d with
  | Some u => Ret (fromutc z u)
  | None => Raise ValueError
  end.

(** [d + timedelta(days=n)]: the clock reading moves, the zone tag stays. *)
Definition plus_days (d : datetime) (n : Z) : datetime :=
  mkDt (wall d + n * DAY) (tzinfo d).

(** [datetime.combine(d, t)] with a naive time [t], given as microseconds
    since midnight: the date of [d], the clock time [t], no zone. *)
Definition combine (d : datetime) (t : Z) : datetime :=
  mkDt (toordinal d * DAY + t) None.

(** [django.utils.timezone.utc]. *)
Definition utc : zone := mkZone "UTC" (fun _ => 0) (fun _ => Ret 0) true.

(** ** Dynamically typed arguments *)

(** The values a caller passes as [local_tz] or [tz]: nothing, a boolean, an
    integer, a string or a zone object. *)
Inductive pyval : Type :=
| PNone
| PBool (b : bool)
| PInt (n : Z)
| PStr (s : string)
| PZone (z : zone).

Definition truthy (v : pyval) : bool :=
  match v with
  | PNone => false
  | PBool b => b
  | PInt n => negb (n =? 0)%Z
  | PStr s => negb (s =? "")%string
  | PZone _ => true
  end.

Definition is_None (v : pyval) : bool :=
  match v with
  | PNone => true
  | _ => false
  end.

(** [str(v)]. *)
Definition py_str (v : pyval) : string :=
  match v with
  | PNone => "None"
  | PBool true => "True"
  | PBool false => "False"
  | PInt n => str_of_int n
  | PStr s => s
  | PZone z => tz_str z
  end.

(** [v == s] for a string literal [s]. *)
Definition eq_str (v : pyval) (s : string) : bool :=
  match v with
  | PStr t => (t =? s)%string
  | _ => false
  end.

(** [v in (True, 1, "true")]; [True == 1] holds in Python. *)
Definition in_true_markers (v : pyval) : bool :=
  match v with
  | PBool b => b
  | PInt n => (n =? 1)%Z
  | PStr s => (s =? "true")%string
  | _ => false
  end.

(** [django.utils.timezone.make_aware(value, timezone)]: a zone object tags
    the naive reading through [localize]; anything else is rejected by
    [replace(tzinfo=...)].  An aware [value] is refused. *)
Definition make_aware (value : datetime) (timezone : pyval) : result datetime :=
  match timezone with
  | PZone z =>
      if is_naive value
      then o <- localize z (wall value) ;; Ret (mkDt (wall value) (Some (z, o)))
      else Raise ValueError
  | _ => Raise TypeError
  end.

(** [django.utils.timezone.localtime(value, timezone)]: [astimezone], then
    [normalize] when the zone offers it. *)
Definition localtime (value : datetime) (timezone : pyval) : result datetime :=
  match timezone with
  | PZone z =>
      value' <- astimezone value z ;;
      if has_normalize z then normalize z value' else Ret value'
  | _ => Raise TypeError
  end.

(** ** Values the functions hand back *)

(** [convert_date] returns a datetime or [False]; [date_now] returns a
    datetime or, when a format is given, a string; [delta_as_text] returns a
    string. *)
Inductive value : Type :=
| VDatetime (d : datetime)
| VStr (s : string)
| VFalse.

(** [ParseFailure] is the name the specification gives to [convert_date]'s
    [return False]. *)
Definition ParseFailure : value := VFalse.

(** What a caller passes as [datestr], [dt1] or [dt2]: a string or a datetime
    object. *)
Inductive dateinput : Type :=
| DStr (s : string)
| DDatetime (d : datetime).

(** Truth value of the optional [dt2]: [None] and the empty string are false,
    every datetime is true. *)
Definition given (dt : option dateinput) : bool :=
  match dt with
  | None => false
  | Some (DStr s) => negb (s =? "")
  | Some (DDatetime _) => true
  end.

(** The fields of a [relativedelta] the module reads. *)
Record delta : Type := mkDelta {
  years : Z;
  months : Z;
  days : Z;
  hours : Z;
  minutes : Z
}.

(** ** The collaborators *)

(** - [get_current_timezone]: the process's configured current zone.
    - [utcnow]: the UTC clock reading [datetime.utcnow()] captures.
    - [parse]: [dateutil.parser.parse(s, fuzzy=True, default=None)]; it
      returns a datetime (naive or aware), returns nothing usable, or raises.
    - [relativedelta]: [dateutil.relativedelta.relativedelta(dt2, dt1)] on
      whatever the two normalisations produced.
    - [ungettext]: the plural chooser, handed the singular and plural msgid
      and the count.
    - [strftime]: [d.strftime(fmt)]. *)
Record Env : Type := mkEnv {
  get_current_timezone : zone;
  utcnow : Z;
  parse : string -> result (option datetime);
  relativedelta : value -> value -> result delta;
  ungettext : string -> string -> Z -> string;
  strftime : datetime -> string -> string
}.

Definition ISO8601_DATE_FORMAT : string := "%Y-%m-%dT%H:%M:%S%z".

(** ** The module's functions *)

Section Datetools.

Variable E : Env.

(** [datetime_dumb.utcnow().replace(tzinfo=utc)]: the UTC reading, tagged
    with UTC. *)
Definition utc_reading : datetime :=
  mkDt (utcnow E) (Some (utc, 0)).

(** [date_now(local_tz=False, format=None, tz=None)]. *)
Definition date_now (local_tz : pyval) (format : option string) (tz : pyval)
  : result value :=
  let now := utc_reading in
  let local_tz :=
    if negb (truthy local_tz) && negb (is_None tz) then tz else local_tz in
  now <- (if truthy local_tz
             && negb (str_in_tuple (py_str local_tz) ["utc"; "UTC"])
          then
            let target_tz :=
              if (lower (py_str local_tz) =? "local") || in_true_markers local_tz
              then PZone (get_current_timezone E)
              else local_tz in
            if is_naive now
            then make_aware now target_tz
            else localtime now target_tz
          else Ret now) ;;
  match format with
  | Some fmt =>
      if negb (fmt =? "")
      then
        let fmt :=
          if str_in_tuple (lower fmt) ["iso"; "iso8601"]
          then ISO8601_DATE_FORMAT
          else fmt in
        Ret (VStr (strftime E now fmt))
      else Ret (VDatetime now)
  | None => Ret (VDatetime now)
  end.

(** The zone [convert_date] settles on (lines 115-118): a false [tz] or the
    string "local" gives the current zone, a value whose [str] lowercases to
    "utc" gives [utc], anything else is kept as it is. *)
Definition resolve_tz (tz : pyval) : pyval :=
  if negb (truthy tz) || eq_str tz "local"
  then PZone (get_current_timezone E)
  else if lower (py_str tz) =? "utc"
       then PZone utc
       else tz.

(** [convert_date(datestr, tz=False)]. *)
Definition convert_date (datestr : dateinput) (tz : pyval) : result value :=
  try_except_KeyError
    (datecon <- match datestr with
                | DDatetime d => Ret (Some d)
                | DStr s => parse E s
                end ;;
     match datecon with
     | Some datecon =>
         let tz := resolve_tz tz in
         datecon <- (if is_naive datecon
                     then make_aware datecon tz
                     else localtime datecon tz) ;;
         Ret (VDatetime datecon)
     | None => Ret VFalse
     end)
    (Ret VFalse).

(** [get_midnight(dt, offset)].  The attribute [current_tz.normalize] is
    looked up before its argument is evaluated. *)
Definition get_midnight (dt : datetime) (offset : Z) : result datetime :=
  let current_tz := get_current_timezone E in
  local <- (if has_normalize current_tz
            then converted <- astimezone dt current_tz ;;
                 normalize current_tz converted
            else Raise AttributeError) ;;
  let o := combine (plus_days local offset) 0 in
  make_aware o (PZone (get_current_timezone E)).

Definition next_midnight (dt : datetime) : result datetime := get_midnight dt 1.

Definition last_midnight (dt : datetime) : result datetime := get_midnight dt 0.

(** The five [do_*] flags of [delta_as_text]. *)
Definition do_years (include : string) : bool :=
  str_in "Y" include || str_in "y" include.

Definition do_months (include : string) : bool :=
  str_in "m" include || str_in "b" include || str_in "B" include.

Definition do_days (include : string) : bool :=
  str_in "d" include || str_in "D" include.

Definition do_hours (include : string) : bool :=
  str_in "H" include || str_in "h" include.

Definition do_minutes (include : string) : bool :=
  str_in "M" include || str_in "i" include || str_in "I" include.

(** One [if do_x and (include_zeros or delta.x != 0): out_desc.append(...)]
    block: the list built so far goes in, the list after the block comes
    out. *)
Definition append_unit (do_unit include_zeros : bool) (count : Z)
    (singular plural : string) (out_desc : list string) : list string :=
  if do_unit && (include_zeros || negb (count =? 0)%Z)
  then out_desc ++ [percent_count (ungettext E singular plural count) count]
  else out_desc.

(** The part of [delta_as_text] after the delta is known. *)
Definition describe (d : delta) (include : string) (include_zeros : bool)
  : string :=
  let out_desc := [] in
  let out_desc := append_unit (do_years include) include_zeros (years d)
                    "%(count)d year" "%(count)d years" out_desc in
  let out_desc := append_unit (do_months include) include_zeros (months d)
                    "%(count)d month" "%(count)d months" out_desc in
  let out_desc := append_unit (do_days include) include_zeros (days d)
                    "%(count)d day" "%(count)d days" out_desc in
  let out_desc := append_unit (do_hours include) include_zeros (hours d)
                    "%(count)d hour" "%(count)d hours" out_desc in
  let out_desc := append_unit (do_minutes include) include_zeros (minutes d)
                    "%(count)d minute" "%(count)d minutes" out_desc in
  String.concat ", " out_desc.

(** The reference point of [delta_as_text] (lines 184-187): [dt2] normalised
    when it is given, the current time in [tz2] otherwise. *)
Definition second_point (dt2 : option dateinput) (tz2 : pyval) : result value :=
  match dt2 with
  | Some d2 => if given dt2 then convert_date d2 tz2 else date_now tz2 None PNone
  | None => date_now tz2 None PNone
  end.

(** [delta_as_text(dt1, dt2=None, tz1="utc", tz2="utc", include="YmdHM",
    include_zeros=True)].  Whatever [convert_date] returned for [dt1], a
    datetime or [False], is handed to [relativedelta]. *)
Definition delta_as_text (dt1 : dateinput) (dt2 : option dateinput)
    (tz1 tz2 : pyval) (include : string) (include_zeros : bool)
  : result value :=
  dt1 <- convert_date dt1 tz1 ;;
  dt2 <- second_point dt2 tz2 ;;
  d <- relativedelta E dt2 dt1 ;;
  Ret (VStr (describe d include include_zeros)).

End Datetools.

(** ** The formatter as the specification words it *)

(** The five units, in the order in which fragments are emitted. *)
Inductive time_unit : Type :=
| Years
| Months
| Days
| Hours
| Minutes.

Definition units_in_order : list time_unit :=
  [Years; Months; Days; Hours; Minutes].

Definition unit_name (u : time_unit) : string :=
  match u with
  | Years => "year"
  | Months => "month"
  | Days => "day"
  | Hours => "hour"
  | Minutes => "minute"
  end.

Definition unit_value (d : delta) (u : time_unit) : Z :=
  match u with
  | Years => years d
  | Months => months d
  | Days => days d
  | Hours => hours d
  | Minutes => minutes d
  end.

(** The alias group of each unit. *)
Definition aliases (u : time_unit) : list ascii :=
  match u with
  | Years => ["Y"; "y"]
  | Months => ["m"; "b"; "B"]
  | Days => ["d"; "D"]
  | Hours => ["H"; "h"]
  | Minutes => ["M"; "i"; "I"]
  end%char.

(** The flag the code computes for a unit. *)
Definition selected (include : string) (u : time_unit) : bool :=
  match u with
  | Years => do_years include
  | Months => do_months include
  | Days => do_days include
  | Hours => do_hours include
  | Minutes => do_minutes include
  end.

(** Selection by letter membership: some character of the selector lies in
    the unit's alias group. *)
Definition spec_selected (include : string) (u : time_unit) : bool :=
  existsb (fun c => existsb (Ascii.eqb c) (aliases u))
          (list_ascii_of_string include).

(** "<count> <unit-name>", singular for a count of one, plural otherwise. *)
Definition spec_fragment (u : time_unit) (count : Z) : string :=
  str_of_int count ++ " " ++ unit_name u ++ (if (count =? 1)%Z then "" else "s").

(** A unit is rendered when it is selected and either zeros are included or
    its value is not zero. *)
Definition spec_emits (include : string) (include_zeros : bool) (d : delta)
    (u : time_unit) : bool :=
  selected include u && (include_zeros || negb (unit_value d u =? 0)%Z).

Definition spec_fragments (include : string) (include_zeros : bool) (d : delta)
  : list string :=
  map (fun u => spec_fragment u (unit_value d u))
      (filter (spec_emits include include_zeros d) units_in_order).

Definition spec_text (include : string) (include_zeros : bool) (d : delta)
  : string :=
  String.concat ", " (spec_fragments include include_zeros d).

(** The plural chooser when no catalogue overrides the msgids: the singular
    for a count of one, the plural otherwise. *)
Definition count_based (E : Env) : Prop :=
  forall singular plural n,
    ungettext E singular plural n = if (n =? 1)%Z then singular else plural.

(** The timestamp an input stands for: the datetime itself, or what the
    parser makes of the string. *)
Definition denotes (E : Env) (x : dateinput) (t : datetime) : Prop :=
  match x with
  | DDatetime d => d = t
  | DStr s => parse E s = Ret (Some t)
  end.

(** The dates CPython's [datetime] can hold, 0001-01-01 to 9999-12-31 as
    ordinals, and the largest [timedelta(days=...)].  Arithmetic that leaves
    these bounds raises [OverflowError] in the code; the functions above do
    not model it, so a statement that is to hold of the code for every input
    names the bounds. *)
Definition MINORDINAL : Z := 1.
Definition MAXORDINAL : Z := 3652059.
Definition MAX_DELTA_DAYS : Z := 999999999.

Definition representable (d : datetime) : Prop :=
  MINORDINAL <= toordinal d <= MAXORDINAL.

(** A zone whose tagging and conversion agree: the offset [localize] picks
    for a reading is the offset in force at the instant the tagged value
    denotes. *)
Definition localize_consistent (z : zone) : Prop :=
  forall w o, localize z w = Ret o -> utcoffset z (w - o) = o.

(** How a caller tells a failed [convert_date] from a datetime: [if result:]. *)
Definition value_truthy (v : value) : bool :=
  match v with
  | VDatetime _ => true
  | VStr s => negb (s =? "")
  | VFalse => false
  end.

(** ** A concrete environment

    Used to run the functions on explicit inputs: a fixed zone one hour east
    of UTC as the current zone, a zone with one daylight-saving step, a parser
    that knows a handful of literals, a delta calculator without calendar,
    and the catalogue-free plural chooser. *)

Definition at_clock (ordinal h m : Z) : Z := ordinal * DAY + h * HOUR + m * MINUTE.

Definition east1 : zone :=
  mkZone "Etc/GMT-1" (fun _ => HOUR) (fun _ => Ret HOUR) true.

(** Offset zero until 2017-03-26 01:00 UTC, one hour afterwards; the clock
    readings of the skipped hour are refused by [localize]. *)
Definition spring : zone :=
  let step := at_clock 736414 1 0 in
  mkZone "Europe/London"
    (fun u => if (u <? step)%Z then 0 else HOUR)
    (fun w => if (w <? step)%Z then Ret 0
              else if (w <? step + HOUR)%Z then Raise InvalidTimeError
                   else Ret HOUR)
    true.

(** Three hours west of UTC until 2017-10-15 03:00 UTC, two hours west
    afterwards: the clock jumps from 00:00 to 01:00 on that day, and the
    readings of the skipped hour, local midnight among them, are refused by
    [localize]. *)
Definition midnight_gap : zone :=
  let step := at_clock 736617 3 0 in
  mkZone "America/Sao_Paulo"
    (fun u => if (u <? step)%Z then - (3 * HOUR) else - (2 * HOUR))
    (fun w => if (w <? step - 3 * HOUR)%Z then Ret (- (3 * HOUR))
              else if (w <? step - 2 * HOUR)%Z then Raise InvalidTimeError
                   else Ret (- (2 * HOUR)))
    true.

(** A zone object that is not pytz's: it has no [normalize]. *)
Definition plain_east1 : zone :=
  mkZone "+01:00" (fun _ => HOUR) (fun _ => Ret HOUR) false.

(** dateutil raises [ValueError] for a string of unknown format; the empty
    string and "no date here" stand for the two outcomes [convert_date]
    handles itself. *)
Definition demo_parse (s : string) : result (option datetime) :=
  if s =? "2017-01-01T00:00:00+00:00"
  then Ret (Some (mkDt (at_clock 736330 0 0) (Some (utc, 0))))
  else if s =? "2017-04-12T20:51:00+00:00"
  then Ret (Some (mkDt (at_clock 736431 20 51) (Some (utc, 0))))
  else if s =? "2017-04-12 20:51"
  then Ret (Some (mkDt (at_clock 736431 20 51) None))
  else if s =? ""
  then Ret None
  else if s =? "no date here"
  then Raise KeyError
  else Raise ValueError.

(** Whole days, hours and minutes between two aware values; as in dateutil, a
    false argument gives the zero delta. *)
Definition demo_relativedelta (dt2 dt1 : value) : result delta :=
  match dt2, dt1 with
  | VDatetime a, VDatetime b =>
      match instant a, instant b with
      | Some i, Some j =>
          let m := Z.quot (i - j) MINUTE in
          Ret (mkDelta 0 0 (Z.quot m 1440) (Z.quot (Z.rem m 1440) 60) (Z.rem m 60))
      | _, _ => Raise TypeError
      end
  | _, _ => Ret (mkDelta 0 0 0 0 0)
  end.

Definition demo_ungettext (singular plural : string) (n : Z) : string :=
  if (n =? 1)%Z then singular else plural.

Definition demo_strftime (d : datetime) (fmt : string) : string :=
  fmt ++ "@" ++ str_of_int (wall d).

Definition demo : Env :=
  mkEnv east1 (at_clock 736431 21 0) demo_parse demo_relativedelta
        demo_ungettext demo_strftime.

(** [demo] with another current zone. *)
Definition demo_in (z : zone) : Env :=
  mkEnv z (at_clock 736431 21 0) demo_parse demo_relativedelta
        demo_ungettext demo_strftime.

Definition demo_naive : datetime := mkDt (at_clock 736431 20 51) None.
Definition demo_aware : datetime := mkDt (at_clock 736431 20 51) (Some (utc, 0)).

(** ** Strings: membership and substitution *)


(** For a needle of one character, [in] is character membership. *)
Lemma str_in_char (c : ascii) (hay : string) :
  str_in (String c "") hay = existsb (Ascii.eqb c) (list_ascii_of_string hay).
Proof.
  induction hay as [|a hay IH]; simpl; [reflexivity |].
  rewrite IH. destruct (ascii_dec c a) as [->|Hne].
  - rewrite Ascii.eqb_refl. now destruct hay.
  - apply Ascii.eqb_neq in Hne. now rewrite Hne.
Qed.

Lemma existsb_eqb_swap (group chars : list ascii) :
  existsb (fun c => existsb (Ascii.eqb c) group) chars
  = existsb (fun a => existsb (Ascii.eqb a) chars) group.
Proof.
  apply Bool.eq_iff_eq_true. rewrite !existsb_exists. split.
  - intros (c & Hc & Hg). apply existsb_exists in Hg as (a & Ha & Heq).
    apply Ascii.eqb_eq in Heq; subst a.
    exists c; split; [assumption |]. apply existsb_exists.
    exists c; split; [assumption | apply Ascii.eqb_refl].
  - intros (a & Ha & Hc). apply existsb_exists in Hc as (c & Hc & Heq).
    apply Ascii.eqb_eq in Heq; subst c.
    exists a; split; [assumption |]. apply existsb_exists.
    exists a; split; [assumption | apply Ascii.eqb_refl].
Qed.

(** The code's flags are membership in the alias groups. *)
Lemma selected_by_membership (include : string) (u : time_unit) :
  selected include u = spec_selected include u.
Proof.
  unfold spec_selected. rewrite existsb_eqb_swap.
  destruct u; simpl;
    unfold do_years, do_months, do_days, do_hours, do_minutes;
    rewrite !str_in_char, ?orb_false_r, ?orb_assoc; reflexivity.
Qed.

(** Two selectors with the same set of characters select the same units. *)
Lemma selected_ext (include include' : string) (u : time_unit) :
  (forall c, In c (list_ascii_of_string include)
             <-> In c (list_ascii_of_string include')) ->
  selected include u = selected include' u.
Proof.
  intros Hsame. rewrite !selected_by_membership. unfold spec_selected.
  apply Bool.eq_iff_eq_true. rewrite !existsb_exists.
  split; intros (c & Hc & Hg); exists c; (split; [apply Hsame, Hc | exact Hg]).
Qed.


(** The text depends on the selector only through the five flags. *)
Lemma describe_flags (E : Env) (d : delta) (include include' : string)
    (include_zeros : bool) :
  (forall u, selected include u = selected include' u) ->
  describe E d include include_zeros = describe E d include' include_zeros.
Proof.
  intros H. unfold describe.
  pose proof (H Years) as Hy. pose proof (H Months) as Hm.
  pose proof (H Days) as Hd. pose proof (H Hours) as Hh.
  pose proof (H Minutes) as Hi. simpl in Hy, Hm, Hd, Hh, Hi.
  now rewrite Hy, Hm, Hd, Hh, Hi.
Qed.

Lemma delta_as_text_flags (E : Env) dt1 dt2 tz1 tz2 include include' zeros :
  (forall u, selected include u = selected include' u) ->
  delta_as_text E dt1 dt2 tz1 tz2 include zeros
  = delta_as_text E dt1 dt2 tz1 tz2 include' zeros.
Proof.
  intros H. unfold delta_as_text.
  destruct (convert_date E dt1 tz1) as [v1|e]; simpl; [|reflexivity].
  destruct (second_point E dt2 tz2) as [v2|e]; simpl; [|reflexivity].
  destruct (relativedelta E v2 v1) as [d|e]; simpl; [|reflexivity].
  now rewrite (describe_flags E d include include' zeros H).
Qed.

(** The msgid chosen by a count-based chooser, with the count substituted. *)
Lemma fragment_of_template (E : Env) (u : time_unit) (n : Z) :
  count_based E ->
  percent_count
    (ungettext E ("%(count)d " ++ unit_name u)
                 ("%(count)d " ++ unit_name u ++ "s") n) n
  = spec_fragment u n.
Proof.
  intros Hc. rewrite Hc. unfold spec_fragment, percent_count.
  destruct (n =? 1)%Z; destruct u; reflexivity.
Qed.

(** ** The rendered text *)

(** The five blocks of the code build the list of the rendered units. *)
Lemma describe_spec_text (E : Env) (d : delta) (include : string)
    (include_zeros : bool) :
  count_based E ->
  describe E d include include_zeros = spec_text include include_zeros d.
Proof.
  intros Hc.
  pose proof (fragment_of_template E Years (years d) Hc) as Fy.
  pose proof (fragment_of_template E Months (months d) Hc) as Fm.
  pose proof (fragment_of_template E Days (days d) Hc) as Fd.
  pose proof (fragment_of_template E Hours (hours d) Hc) as Fh.
  pose proof (fragment_of_template E Minutes (minutes d) Hc) as Fi.
  simpl in Fy, Fm, Fd, Fh, Fi.
  unfold describe, append_unit, spec_text, spec_fragments, spec_emits.
  simpl filter. rewrite Fy, Fm, Fd, Fh, Fi.
  destruct (do_years include && (include_zeros || negb (years d =? 0)%Z));
  destruct (do_months include && (include_zeros || negb (months d =? 0)%Z));
  destruct (do_days include && (include_zeros || negb (days d =? 0)%Z));
  destruct (do_hours include && (include_zeros || negb (hours d =? 0)%Z));
  destruct (do_minutes include && (include_zeros || negb (minutes d =? 0)%Z));
  reflexivity.
Qed.

(** C3.  Once both inputs are normalised and the calculator has returned a
    delta, [delta_as_text] returns the fragments of the units that are
    selected and either non-zero or kept by [include_zeros], each
    "<count> <unit>" with the singular for a count of one and the plural
    otherwise, in the order years, months, days, hours, minutes and joined by
    ", "; the text is empty when no unit is rendered, and a selector with the
    same letters in another order gives the same text.  The plural chooser is
    the count-based one. *)
Theorem delta_as_text_renders_units (E : Env) (dt1 : dateinput)
    (dt2 : option dateinput) (tz1 tz2 : pyval) (include : string)
    (include_zeros : bool) (p1 p2 : value) (d : delta) :
  count_based E ->
  convert_date E dt1 tz1 = Ret p1 ->
  second_point E dt2 tz2 = Ret p2 ->
  relativedelta E p2 p1 = Ret d ->
  delta_as_text E dt1 dt2 tz1 tz2 include include_zeros
    = Ret (VStr (String.concat ", "
         (map (fun u => spec_fragment u (unit_value d u))
              (filter (fun u => selected include u
                                && (include_zeros
                                    || negb (unit_value d u =? 0)%Z))
                      units_in_order))))
  /\ (spec_fragments include include_zeros d = [] ->
      delta_as_text E dt1 dt2 tz1 tz2 include include_zeros = Ret (VStr ""))
  /\ (forall include',
        (forall c, In c (list_ascii_of_string include)
                   <-> In c (list_ascii_of_string include')) ->
        delta_as_text E dt1 dt2 tz1 tz2 include' include_zeros
        = delta_as_text E dt1 dt2 tz1 tz2 include include_zeros).
Proof.
  intros Hc H1 H2 Hd.
  assert (Hrun : delta_as_text E dt1 dt2 tz1 tz2 include include_zeros
                 = Ret (VStr (spec_text include include_zeros d))).
  { unfold delta_as_text. rewrite H1; simpl. rewrite H2; simpl.
    rewrite Hd; simpl. now rewrite describe_spec_text. }
  split; [exact Hrun |]. split.
  - intros Hnone. rewrite Hrun. unfold spec_text. now rewrite Hnone.
  - intros include' Hsame. apply delta_as_text_flags.
    intros u. symmetry. now apply selected_ext.
Qed.

Lemma demo_count_based : count_based demo.
Proof. intros singular plural n. reflexivity. Qed.

(** The specification's example, zeros suppressed. *)
Lemma delta_as_text_renders_units_witness :
  count_based demo
  /\ delta_as_text demo (DStr "2017-01-01T00:00:00+00:00")
       (Some (DStr "2017-04-12T20:51:00+00:00")) (PStr "utc") (PStr "utc")
       "YmdHM" false
     = Ret (VStr "101 days, 20 hours, 51 minutes").
Proof.
  split; [exact demo_count_based |].
  exact (proj1 (delta_as_text_renders_units demo
                  (DStr "2017-01-01T00:00:00+00:00")
                  (Some (DStr "2017-04-12T20:51:00+00:00"))
                  (PStr "utc") (PStr "utc") "YmdHM" false
                  (VDatetime (fromutc utc (at_clock 736330 0 0)))
                  (VDatetime (fromutc utc (at_clock 736431 20 51)))
                  (mkDelta 0 0 101 20 51)
                  demo_count_based eq_refl eq_refl eq_refl)).
Defined.

(** ** Unit selection *)


(** ** Zones: conversion and tagging *)

Lemma instant_fromutc (z : zone) (u : Z) : instant (fromutc z u) = Some u.
Proof. unfold instant, fromutc; simpl. f_equal. lia. Qed.

Lemma zone_of_fromutc (z : zone) (u : Z) : zone_of (fromutc z u) = Some z.
Proof. reflexivity. Qed.

(** [normalize] leaves the result of a conversion into the same zone as it
    is. *)
Lemma normalize_fromutc (z : zone) (u : Z) :
  normalize z (fromutc z u) = Ret (fromutc z u).
Proof. unfold normalize. now rewrite instant_fromutc. Qed.

(** [localtime] re-expresses an aware value in the zone it is given. *)
Lemma localtime_zone (value : datetime) (z : zone) (u : Z) :
  instant value = Some u ->
  localtime value (PZone z) = Ret (fromutc z u).
Proof.
  intros Hu. unfold localtime, astimezone. rewrite Hu; simpl.
  destruct (has_normalize z); [apply normalize_fromutc | reflexivity].
Qed.

Lemma instant_aware (t : datetime) (z : zone) (o : Z) :
  tzinfo t = Some (z, o) -> instant t = Some (wall t - o).
Proof. intros H. unfold instant. now rewrite H. Qed.

(** [convert_date] on an input that stands for a timestamp: the branch on
    [is_naive] under the [KeyError] handler. *)
Lemma convert_date_denotes (E : Env) (x : dateinput) (t : datetime) (tz : pyval) :
  denotes E x t ->
  convert_date E x tz
  = try_except_KeyError
      (d <- (if is_naive t
             then make_aware t (resolve_tz E tz)
             else localtime t (resolve_tz E tz)) ;;
       Ret (VDatetime d))
      (Ret VFalse).
Proof.
  intros Hx. unfold convert_date. destruct x as [s|d]; simpl in Hx.
  - now rewrite Hx.
  - now subst d.
Qed.

(** A zone object given as [tz] resolves to a zone: itself, or [utc] when
    its name reads "utc". *)
Lemma resolve_tz_handle (E : Env) (z : zone) :
  resolve_tz E (PZone z)
  = PZone (if lower (tz_str z) =? "utc" then utc else z).
Proof.
  unfold resolve_tz. cbn [truthy eq_str py_str negb orb].
  now destruct (lower (tz_str z) =? "utc").
Qed.

(** C6.  An aware timestamp normalised into a zone keeps its instant, and
    converting the result back into the zone it came from gives that instant
    again. *)
Theorem convert_date_aware_roundtrip (E : Env) (x : dateinput) (t : datetime)
    (z0 : zone) (o : Z) (tz : pyval) (z : zone) :
  denotes E x t ->
  tzinfo t = Some (z0, o) ->
  resolve_tz E tz = PZone z ->
  exists r,
    convert_date E x tz = Ret (VDatetime r)
    /\ zone_of r = Some z
    /\ instant r = instant t
    /\ exists back,
         localtime r (PZone z0) = Ret back
         /\ zone_of back = Some z0
         /\ instant back = instant t.
Proof.
  intros Hx Ht Hz. pose proof (instant_aware t z0 o Ht) as Hi.
  exists (fromutc z (wall t - o)).
  rewrite (convert_date_denotes E x t tz Hx), Hz.
  unfold is_naive. rewrite Ht, (localtime_zone t z _ Hi).
  cbn [bind try_except_KeyError]. rewrite Hi, instant_fromutc.
  split; [reflexivity | split; [reflexivity | split; [reflexivity |]]].
  exists (fromutc z0 (wall t - o)).
  rewrite (localtime_zone _ z0 _ (instant_fromutc z (wall t - o))).
  rewrite instant_fromutc.
  split; [reflexivity | split; reflexivity].
Qed.

Lemma convert_date_aware_roundtrip_witness :
  exists r,
    convert_date demo (DStr "2017-04-12T20:51:00+00:00") (PStr "local")
      = Ret (VDatetime r)
    /\ zone_of r = Some east1
    /\ instant r = instant demo_aware
    /\ exists back,
         localtime r (PZone utc) = Ret back
         /\ zone_of back = Some utc
         /\ instant back = instant demo_aware.
Proof.
  exact (convert_date_aware_roundtrip demo (DStr "2017-04-12T20:51:00+00:00")
           demo_aware utc 0 (PStr "local") east1 eq_refl eq_refl eq_refl).
Defined.

(** C7, as the code has it.  A naive timestamp whose clock reading the
    target zone accepts is tagged with that zone and keeps its clock reading,
    whatever offset the zone picks for it; an aware timestamp goes through
    the conversion instead, where the reading becomes the instant plus the
    target zone's offset. *)
Theorem convert_date_naive_assumes (E : Env) (x : dateinput) (t : datetime)
    (tz : pyval) (z : zone) (o : Z) :
  denotes E x t ->
  tzinfo t = None ->
  resolve_tz E tz = PZone z ->
  localize z (wall t) = Ret o ->
  (exists r,
     convert_date E x tz = Ret (VDatetime r)
     /\ zone_of r = Some z
     /\ wall r = wall t
     /\ clock_reading r = clock_reading t
     /\ instant r = Some (wall t - o))
  /\ (forall x' a z0 o0,
        denotes E x' a ->
        tzinfo a = Some (z0, o0) ->
        convert_date E x' tz = Ret (VDatetime (fromutc z (wall a - o0)))).
Proof.
  intros Hx Ht Hz Hl. split.
  - exists (mkDt (wall t) (Some (z, o))).
    rewrite (convert_date_denotes E x t tz Hx), Hz.
    unfold is_naive, make_aware, is_naive. rewrite Ht, Hl; simpl.
    split; [reflexivity | split; [reflexivity | split; [reflexivity |]]].
    split; reflexivity.
  - intros x' a z0 o0 Hx' Ha.
    rewrite (convert_date_denotes E x' a tz Hx'), Hz.
    unfold is_naive. rewrite Ha.
    now rewrite (localtime_zone a z _ (instant_aware a z0 o0 Ha)).
Qed.

Lemma convert_date_naive_assumes_witness :
  exists r,
    convert_date demo (DStr "2017-04-12 20:51") (PBool false) = Ret (VDatetime r)
    /\ zone_of r = Some east1
    /\ wall r = wall demo_naive
    /\ clock_reading r = clock_reading demo_naive
    /\ instant r = Some (wall demo_naive - HOUR).
Proof.
  exact (proj1 (convert_date_naive_assumes demo (DStr "2017-04-12 20:51")
                  demo_naive (PBool false) east1 HOUR
                  eq_refl eq_refl eq_refl eq_refl)).
Defined.

(** A reading inside a daylight-saving gap is not tagged: 01:30 on
    2017-03-26 does not exist in [spring], and the error of [localize]
    leaves [convert_date]. *)
Lemma convert_date_naive_assumes_counterexample :
  tzinfo (mkDt (at_clock 736414 1 30) None) = None
  /\ resolve_tz demo (PZone spring) = PZone spring
  /\ localize spring (at_clock 736414 1 30) = Raise InvalidTimeError
  /\ convert_date demo (DDatetime (mkDt (at_clock 736414 1 30) None))
       (PZone spring)
     = Raise InvalidTimeError.
Proof. repeat split. Qed.

(** ** Local midnight *)

Lemma DAY_pos : 0 < DAY.
Proof. reflexivity. Qed.

(** Shifting a reading by whole days shifts its date and nothing else. *)
Lemma toordinal_plus_days (d : datetime) (n : Z) :
  toordinal (plus_days d n) = toordinal d + n.
Proof.
  unfold toordinal, plus_days; simpl.
  apply Z.div_add. pose proof DAY_pos. lia.
Qed.

Lemma midnight_fields (k : Z) (tz : option (zone * Z)) :
  let m := mkDt (k * DAY) tz in
  toordinal m = k /\ time_of_day m = 0
  /\ hour m = 0 /\ minute m = 0 /\ second m = 0 /\ microsecond m = 0.
Proof.
  assert (Hd : toordinal (mkDt (k * DAY) tz) = k).
  { unfold toordinal; simpl. apply Z.div_mul. pose proof DAY_pos. lia. }
  assert (Ht : time_of_day (mkDt (k * DAY) tz) = 0).
  { unfold time_of_day; simpl. apply Z.mod_mul. pose proof DAY_pos. lia. }
  simpl. unfold hour, minute, second, microsecond. rewrite Ht.
  repeat split; try assumption; reflexivity.
Qed.

(** C9, as the code has it.  For an aware [t] and an offset,
    [get_midnight] converts [t] to the current zone, takes the date of that
    local reading, moves it by [offset] whole days and tags clock time
    00:00:00 on that date with the current zone; the offset attached is the
    one the zone's [localize] picks for that reading.  This holds when the
    current zone is a pytz zone (the code calls its [normalize]), the dates
    stay within the range of [datetime], and the zone accepts the midnight
    reading. *)
Theorem get_midnight_local_midnight (E : Env) (t : datetime) (z0 : zone)
    (o offset o' : Z) :
  tzinfo t = Some (z0, o) ->
  has_normalize (get_current_timezone E) = true ->
  Z.abs offset <= MAX_DELTA_DAYS ->
  representable (fromutc (get_current_timezone E) (wall t - o)) ->
  representable
    (plus_days (fromutc (get_current_timezone E) (wall t - o)) offset) ->
  localize (get_current_timezone E)
    ((toordinal (fromutc (get_current_timezone E) (wall t - o)) + offset) * DAY)
  = Ret o' ->
  exists r,
    get_midnight E t offset = Ret r
    /\ instant (fromutc (get_current_timezone E) (wall t - o)) = instant t
    /\ zone_of r = Some (get_current_timezone E)
    /\ toordinal r
       = toordinal (fromutc (get_current_timezone E) (wall t - o)) + offset
    /\ time_of_day r = 0
    /\ hour r = 0 /\ minute r = 0 /\ second r = 0 /\ microsecond r = 0
    /\ instant r = Some (wall r - o').
Proof.
  intros Ht Hn _ _ _ Hl.
  set (cz := get_current_timezone E) in *.
  set (local := fromutc cz (wall t - o)) in *.
  exists (mkDt ((toordinal local + offset) * DAY) (Some (cz, o'))).
  destruct (midnight_fields (toordinal local + offset) (Some (cz, o')))
    as (Hd & Htod & Hh & Hm & Hs & Hus).
  split; [| split; [| split; [| split; [exact Hd |]]]].
  - unfold get_midnight. fold cz. rewrite Hn.
    unfold astimezone. rewrite (instant_aware t z0 o Ht).
    cbn [bind]. rewrite normalize_fromutc. cbn [bind]. fold local.
    unfold combine. rewrite toordinal_plus_days, Z.add_0_r.
    unfold make_aware, is_naive. cbn [tzinfo wall]. rewrite Hl. reflexivity.
  - unfold local. now rewrite instant_fromutc, (instant_aware t z0 o Ht).
  - reflexivity.
  - repeat split; assumption.
Qed.

(** 2017-04-12 23:30 UTC is 00:30 on the 13th one hour east; the last
    midnight is the start of the 13th there. *)
Lemma get_midnight_local_midnight_witness :
  exists r,
    get_midnight demo (mkDt (at_clock 736431 23 30) (Some (utc, 0))) 0 = Ret r
    /\ instant (fromutc east1 (at_clock 736431 23 30 - 0))
       = instant (mkDt (at_clock 736431 23 30) (Some (utc, 0)))
    /\ zone_of r = Some east1
    /\ toordinal r = 736432 + 0
    /\ time_of_day r = 0
    /\ hour r = 0 /\ minute r = 0 /\ second r = 0 /\ microsecond r = 0
    /\ instant r = Some (wall r - HOUR).
Proof.
  apply (get_midnight_local_midnight demo
           (mkDt (at_clock 736431 23 30) (Some (utc, 0))) utc 0 0 HOUR);
    try reflexivity; vm_compute; try split; discriminate.
Defined.

(** Where the clock skips local midnight, and where the current zone has no
    [normalize], no midnight is returned.  2017-10-15 12:00 UTC is 10:00 on
    the same day in [midnight_gap], whose midnight does not exist. *)
Lemma get_midnight_local_midnight_counterexample :
  tzinfo (mkDt (at_clock 736617 12 0) (Some (utc, 0))) = Some (utc, 0)
  /\ get_midnight (demo_in midnight_gap)
       (mkDt (at_clock 736617 12 0) (Some (utc, 0))) 0
     = Raise InvalidTimeError
  /\ get_midnight (demo_in midnight_gap)
       (mkDt (at_clock 736616 12 0) (Some (utc, 0))) 1
     = Raise InvalidTimeError
  /\ get_midnight (demo_in plain_east1)
       (mkDt (at_clock 736431 23 30) (Some (utc, 0))) 0
     = Raise AttributeError.
Proof. repeat split. Qed.

(** What a successful [get_midnight] has gone through. *)
Lemma get_midnight_inv (E : Env) (t : datetime) (offset : Z) (r : datetime) :
  get_midnight E t offset = Ret r ->
  exists u o',
    instant t = Some u
    /\ has_normalize (get_current_timezone E) = true
    /\ localize (get_current_timezone E)
         ((toordinal (fromutc (get_current_timezone E) u) + offset) * DAY)
       = Ret o'
    /\ r = mkDt ((toordinal (fromutc (get_current_timezone E) u) + offset) * DAY)
                (Some (get_current_timezone E, o')).
Proof.
  unfold get_midnight, astimezone.
  destruct (has_normalize (get_current_timezone E)); [| discriminate].
  destruct (instant t) as [u|]; [| discriminate].
  cbn [bind]. rewrite normalize_fromutc. cbn [bind].
  unfold combine. rewrite toordinal_plus_days, Z.add_0_r.
  unfold make_aware, is_naive. cbn [tzinfo wall].
  destruct (localize _ _) as [o'|e] eqn:Hl; cbn [bind]; [| discriminate].
  intros [= <-]. exists u, o'. repeat split. exact Hl.
Qed.

Lemma east1_consistent : localize_consistent east1.
Proof. intros w o [= <-]. reflexivity. Qed.

(** Across a daylight-saving step the offset of the result is the one in
    force at the new date: 12:00 UTC on 2017-03-26 is 13:00 in the zone
    [spring], and the last midnight there still has offset zero. *)
Example get_midnight_across_step :
  get_midnight (mkEnv spring 0 demo_parse demo_relativedelta demo_ungettext
                  demo_strftime)
    (mkDt (at_clock 736414 12 0) (Some (utc, 0))) 0
  = Ret (mkDt (at_clock 736414 0 0) (Some (spring, 0))).
Proof. reflexivity. Qed.

(** ** The current time *)

Lemma instant_utc_reading (E : Env) : instant (utc_reading E) = Some (utcnow E).
Proof. unfold instant, utc_reading; simpl. f_equal. lia. Qed.

Lemma is_naive_utc_reading (E : Env) : is_naive (utc_reading E) = false.
Proof. reflexivity. Qed.

(** With no specifier the conversion is skipped. *)
Lemma date_now_no_specifier (E : Env) :
  date_now E (PBool false) None PNone = Ret (VDatetime (utc_reading E)).
Proof. reflexivity. Qed.

(** "utc" and "UTC" leave the reading in UTC. *)
Lemma date_now_utc (E : Env) (s : string) :
  s = "utc" \/ s = "UTC" ->
  date_now E (PStr s) None PNone = Ret (VDatetime (utc_reading E)).
Proof. intros [-> | ->]; reflexivity. Qed.

Lemma lower_local_not_special (s : string) :
  lower s = "local" ->
  (s =? "") = false /\ (s =? "utc") = false /\ (s =? "UTC") = false
  /\ (s =? "true") = false.
Proof.
  intros H. repeat split; apply String.eqb_neq; intros ->; discriminate H.
Qed.

(** A specifier that asks for the current zone gets the UTC reading
    re-expressed there. *)
Lemma date_now_current_zone (E : Env) (spec : pyval) :
  (exists s, spec = PStr s /\ lower s = "local")
  \/ spec = PBool true \/ spec = PInt 1 \/ spec = PStr "true" ->
  date_now E spec None PNone
  = Ret (VDatetime (fromutc (get_current_timezone E) (utcnow E))).
Proof.
  assert (Hconv : localtime (utc_reading E) (PZone (get_current_timezone E))
                  = Ret (fromutc (get_current_timezone E) (utcnow E))).
  { apply localtime_zone, instant_utc_reading. }
  intros [(s & -> & Hs) | [-> | [-> | ->]]].
  - destruct (lower_local_not_special s Hs) as (He & Hu & HU & _).
    unfold date_now. fold (utc_reading E).
    cbn [truthy is_None negb py_str str_in_tuple existsb].
    rewrite !Bool.andb_false_r. cbn [truthy py_str].
    rewrite He, Hu, HU, Hs. cbn [negb andb orb String.eqb Ascii.eqb Bool.eqb].
    rewrite ?is_naive_utc_reading, Hconv. reflexivity.
  - transitivity (d <- localtime (utc_reading E)
                         (PZone (get_current_timezone E)) ;;
                  Ret (VDatetime d)); [reflexivity | now rewrite Hconv].
  - transitivity (d <- localtime (utc_reading E)
                         (PZone (get_current_timezone E)) ;;
                  Ret (VDatetime d)); [reflexivity | now rewrite Hconv].
  - transitivity (d <- localtime (utc_reading E)
                         (PZone (get_current_timezone E)) ;;
                  Ret (VDatetime d)); [reflexivity | now rewrite Hconv].
Qed.

(** What [localtime] returns is aware. *)
Lemma localtime_aware (value : datetime) (timezone : pyval) (d : datetime) :
  localtime value timezone = Ret d -> is_naive d = false.
Proof.
  unfold localtime, astimezone. destruct timezone as [| | | | z]; try discriminate.
  destruct (instant value) as [u|]; [| discriminate]. cbn [bind].
  destruct (has_normalize z).
  - rewrite normalize_fromutc. now intros [= <-].
  - now intros [= <-].
Qed.



(** C4, as the code has it.  With no specifier, or a false one, [date_now]
    returns the UTC reading itself, tagged with UTC; the current zone is used
    when the specifier is "local" in any casing, [True], [1] or "true", and
    the result then denotes the instant of the UTC reading. *)
Theorem date_now_default_is_utc (E : Env) :
  date_now E (PBool false) None PNone = Ret (VDatetime (utc_reading E))
  /\ (forall spec, truthy spec = false ->
        date_now E spec None PNone = Ret (VDatetime (utc_reading E)))
  /\ zone_of (utc_reading E) = Some utc
  /\ instant (utc_reading E) = Some (utcnow E)
  /\ (forall spec,
        (exists s, spec = PStr s /\ lower s = "local")
        \/ spec = PBool true \/ spec = PInt 1 \/ spec = PStr "true" ->
        exists d,
          date_now E spec None PNone = Ret (VDatetime d)
          /\ zone_of d = Some (get_current_timezone E)
          /\ instant d = Some (utcnow E)).
Proof.
  split; [reflexivity |]. split; [| split; [reflexivity | split]].
  - intros spec Hf. unfold date_now. fold (utc_reading E).
    cbn [is_None negb]. rewrite Bool.andb_false_r, Hf. reflexivity.
  - apply instant_utc_reading.
  - intros spec Hspec. exists (fromutc (get_current_timezone E) (utcnow E)).
    split; [now apply date_now_current_zone |].
    split; [reflexivity | apply instant_fromutc].
Qed.

(** With the current zone one hour east of UTC, the default call answers in
    UTC: neither the zone nor the clock reading is the current zone's. *)
Lemma date_now_default_counterexample :
  exists d,
    date_now demo (PBool false) None PNone = Ret (VDatetime d)
    /\ zone_of d = Some utc
    /\ tz_str utc <> tz_str (get_current_timezone demo)
    /\ wall d <> wall (fromutc (get_current_timezone demo) (utcnow demo)).
Proof.
  exists (utc_reading demo).
  split; [reflexivity |]. split; [reflexivity |].
  split; [discriminate | vm_compute; discriminate].
Qed.

(** ** Zone names *)

Lemma lower_utc_not_special (s : string) :
  lower s = "utc" ->
  (s =? "") = false /\ (s =? "local") = false /\ (s =? "true") = false.
Proof.
  intros H. repeat split; apply String.eqb_neq; intros ->; discriminate H.
Qed.

(** The spellings each function recognises.  [date_now] takes exactly "utc" and "UTC" for UTC
    and any casing of "local" for the current zone; [convert_date] takes any
    casing of "utc" for UTC and exactly "local" for the current zone.  Another
    casing is kept as it is written and used as the zone handle. *)
Theorem zone_names_resolution (E : Env) :
  (forall s, s = "utc" \/ s = "UTC" ->
     date_now E (PStr s) None PNone = Ret (VDatetime (utc_reading E)))
  /\ (forall s, lower s = "local" ->
        date_now E (PStr s) None PNone
        = Ret (VDatetime (fromutc (get_current_timezone E) (utcnow E))))
  /\ (forall s, lower s = "utc" -> resolve_tz E (PStr s) = PZone utc)
  /\ resolve_tz E (PStr "local") = PZone (get_current_timezone E)
  /\ (forall s, lower s = "utc" -> s <> "utc" -> s <> "UTC" ->
        date_now E (PStr s) None PNone
        = d <- localtime (utc_reading E) (PStr s) ;; Ret (VDatetime d))
  /\ (forall s, lower s = "local" -> s <> "local" ->
        resolve_tz E (PStr s) = PStr s).
Proof.
  split; [apply date_now_utc |]. split; [| split; [| split; [reflexivity | split]]].
  - intros s Hs. apply date_now_current_zone. left. now exists s.
  - intros s Hs. destruct (lower_utc_not_special s Hs) as (He & Hl & _).
    unfold resolve_tz. cbn [truthy eq_str py_str]. rewrite He, Hl, Hs. reflexivity.
  - intros s Hs Hu HU. destruct (lower_utc_not_special s Hs) as (He & _ & Ht).
    apply String.eqb_neq in Hu, HU.
    unfold date_now. fold (utc_reading E).
    cbn [truthy is_None negb py_str str_in_tuple existsb].
    rewrite !Bool.andb_false_r. cbn [truthy py_str in_true_markers].
    rewrite He, Hu, HU, Hs, Ht, is_naive_utc_reading. reflexivity.
  - intros s Hs Hne. destruct (lower_local_not_special s Hs) as (He & _).
    apply String.eqb_neq in Hne.
    unfold resolve_tz. cbn [truthy eq_str py_str]. rewrite He, Hne, Hs. reflexivity.
Qed.

(** C5.  The claim holds for "utc", "UTC" and "local", and fails for other
    casings: each function folds the case of one name only.  "Utc" in
    [date_now] and "LOCAL" in [convert_date] are not taken for the zone they
    spell; the string itself reaches the conversion, which rejects it with
    [TypeError]. *)
Lemma zone_names_other_casing_rejected :
  lower "Utc" = "utc"
  /\ date_now demo (PStr "Utc") None PNone = Raise TypeError
  /\ date_now demo (PStr "UTC") None PNone = Ret (VDatetime (utc_reading demo))
  /\ lower "LOCAL" = "local"
  /\ resolve_tz demo (PStr "LOCAL") = PStr "LOCAL"
  /\ convert_date demo (DDatetime demo_naive) (PStr "LOCAL") = Raise TypeError
  /\ convert_date demo (DDatetime demo_aware) (PStr "LOCAL") = Raise TypeError.
Proof. repeat split. Qed.

(** ** Unparseable input *)

(** Exceptions other than [KeyError] leave [convert_date]. *)
Lemma convert_date_parser_raises (E : Env) (s : string) (tz : pyval) (e : exn) :
  parse E s = Raise e -> e <> KeyError ->
  convert_date E (DStr s) tz = Raise e.
Proof.
  intros Hp Hne. unfold convert_date. rewrite Hp. cbn [bind].
  destruct e; try reflexivity. now elim Hne.
Qed.

(** The two failures [convert_date] handles: when the parser returns
    nothing usable for the string, or raises [KeyError], it returns [False],
    a false value, unlike every datetime it returns. *)
Theorem convert_date_parse_failure (E : Env) (s : string) (tz : pyval) :
  parse E s = Ret None \/ parse E s = Raise KeyError ->
  convert_date E (DStr s) tz = Ret ParseFailure
  /\ value_truthy ParseFailure = false
  /\ (forall x tz' v, convert_date E x tz' = Ret v ->
        v = ParseFailure \/ exists d, v = VDatetime d /\ value_truthy v = true).
Proof.
  intros Hp. split; [| split; [reflexivity |]].
  - unfold convert_date. destruct Hp as [-> | ->]; reflexivity.
  - intros x tz' v. unfold convert_date.
    match goal with |- context [bind ?r _] => destruct r as [[d|]|e] end;
      cbn [bind].
    + match goal with |- context [bind ?r _] => destruct r as [d'|e] end;
        cbn [bind try_except_KeyError].
      * intros [= <-]. right. now exists d'.
      * destruct e; cbn; intros H; try discriminate H.
        injection H as <-. now left.
    + cbn. intros [= <-]. now left.
    + destruct e; cbn; intros H; try discriminate H.
      injection H as <-. now left.
Qed.

Lemma convert_date_parse_failure_witness :
  (parse demo "" = Ret None \/ parse demo "" = Raise KeyError)
  /\ convert_date demo (DStr "") (PStr "utc") = Ret ParseFailure
  /\ convert_date demo (DStr "no date here") (PStr "utc") = Ret ParseFailure.
Proof.
  split; [left; reflexivity |]. split.
  - exact (proj1 (convert_date_parse_failure demo "" (PStr "utc")
                    (or_introl eq_refl))).
  - exact (proj1 (convert_date_parse_failure demo "no date here" (PStr "utc")
                    (or_intror eq_refl))).
Defined.

(** C2.  The claim fails on a string for which the parser raises
    [ValueError], as dateutil does for an unknown format: the handler of
    [convert_date] names [KeyError] only, so the exception leaves the
    function where the claim has it return the failure value. *)
Lemma convert_date_unparseable_raises :
  parse demo "gibberish" = Raise ValueError
  /\ convert_date demo (DStr "gibberish") (PBool false) = Raise ValueError
  /\ convert_date demo (DStr "gibberish") (PBool false) <> Ret ParseFailure.
Proof. repeat split. discriminate. Qed.





(** ** Further properties: local midnights *)

(** X1.  Starting again from a midnight: in a zone whose tagging and
    conversion agree, [get_midnight] applied to the last midnight of [t]
    gives, for every offset, what it gives for [t] itself.  With offset 0
    the function is idempotent, with offset 1 the midnight after the last
    one is the next one. *)
Theorem get_midnight_from_midnight (E : Env) (t r0 : datetime) (n : Z) :
  localize_consistent (get_current_timezone E) ->
  get_midnight E t 0 = Ret r0 ->
  get_midnight E r0 n = get_midnight E t n.
Proof.
  intros Hcons H0.
  destruct (get_midnight_inv E t 0 r0 H0) as (u & o' & Hu & Hn & Hl & ->).
  set (cz := get_current_timezone E) in *.
  set (D := toordinal (fromutc cz u)) in *.
  assert (Hback : fromutc cz ((D + 0) * DAY - o')
                  = mkDt ((D + 0) * DAY) (Some (cz, o'))).
  { unfold fromutc. rewrite (Hcons _ _ Hl). f_equal. lia. }
  unfold get_midnight, astimezone. fold cz. rewrite Hn, Hu.
  unfold instant at 1. cbn [tzinfo wall bind].
  rewrite !normalize_fromutc. cbn [bind]. rewrite Hback. fold D.
  unfold combine. rewrite !toordinal_plus_days.
  destruct (midnight_fields (D + 0) (Some (cz, o'))) as (-> & _).
  fold D. rewrite !Z.add_0_r. reflexivity.
Qed.

Lemma get_midnight_from_midnight_witness :
  get_midnight demo (mkDt (at_clock 736432 0 0) (Some (east1, HOUR))) 3
  = get_midnight demo (mkDt (at_clock 736431 23 30) (Some (utc, 0))) 3.
Proof.
  exact (get_midnight_from_midnight demo
           (mkDt (at_clock 736431 23 30) (Some (utc, 0)))
           (mkDt (at_clock 736432 0 0) (Some (east1, HOUR))) 3
           east1_consistent eq_refl).
Defined.

(** X2.  The last and the next midnight bracket the local reading of [t]:
    the last midnight is at or before it, the next one strictly after it,
    and the two are one calendar day apart on the clock. *)
Theorem midnights_bracket (E : Env) (t a b : datetime) :
  last_midnight E t = Ret a ->
  next_midnight E t = Ret b ->
  exists local,
    astimezone t (get_current_timezone E) = Ret local
    /\ wall a <= wall local < wall b
    /\ wall b = wall a + DAY
    /\ toordinal a = toordinal local
    /\ toordinal b = toordinal local + 1.
Proof.
  unfold last_midnight, next_midnight. intros Ha Hb.
  destruct (get_midnight_inv E t 0 a Ha) as (u & oa & Hu & _ & _ & ->).
  destruct (get_midnight_inv E t 1 b Hb) as (u' & ob & Hu' & _ & _ & ->).
  rewrite Hu in Hu'. injection Hu' as <-.
  set (local := fromutc (get_current_timezone E) u).
  exists local. unfold astimezone. rewrite Hu. split; [reflexivity |].
  destruct (midnight_fields (toordinal local + 0) (Some (get_current_timezone E, oa)))
    as (Hda & _).
  destruct (midnight_fields (toordinal local + 1) (Some (get_current_timezone E, ob)))
    as (Hdb & _).
  cbn zeta in Hda, Hdb. rewrite Hda, Hdb. cbn [wall].
  pose proof DAY_pos as Hpos.
  pose proof (Z.mul_div_le (wall local) DAY Hpos) as Hle.
  pose proof (Z.mul_succ_div_gt (wall local) DAY Hpos) as Hgt.
  unfold toordinal at 1 2 3 4. repeat split; lia.
Qed.

Lemma midnights_bracket_witness :
  exists local,
    astimezone (mkDt (at_clock 736431 23 30) (Some (utc, 0)))
      (get_current_timezone demo) = Ret local
    /\ wall (mkDt (at_clock 736432 0 0) (Some (east1, HOUR))) <= wall local
       < wall (mkDt (at_clock 736433 0 0) (Some (east1, HOUR)))
    /\ wall (mkDt (at_clock 736433 0 0) (Some (east1, HOUR)))
       = wall (mkDt (at_clock 736432 0 0) (Some (east1, HOUR))) + DAY
    /\ toordinal (mkDt (at_clock 736432 0 0) (Some (east1, HOUR)))
       = toordinal local
    /\ toordinal (mkDt (at_clock 736433 0 0) (Some (east1, HOUR)))
       = toordinal local + 1.
Proof.
  exact (midnights_bracket demo (mkDt (at_clock 736431 23 30) (Some (utc, 0)))
           (mkDt (at_clock 736432 0 0) (Some (east1, HOUR)))
           (mkDt (at_clock 736433 0 0) (Some (east1, HOUR)))
           eq_refl eq_refl).
Defined.

(** X3.  Offsets shift by whole days: two midnights of the same [t] differ
    on the clock by the difference of their offsets, negative offsets
    included, and both read 00:00:00. *)
Theorem get_midnight_offsets (E : Env) (t a b : datetime) (m n : Z) :
  get_midnight E t m = Ret a ->
  get_midnight E t n = Ret b ->
  wall b = wall a + (n - m) * DAY
  /\ toordinal b = toordinal a + (n - m)
  /\ time_of_day a = 0 /\ time_of_day b = 0.
Proof.
  intros Ha Hb.
  destruct (get_midnight_inv E t m a Ha) as (u & oa & Hu & _ & _ & ->).
  destruct (get_midnight_inv E t n b Hb) as (u' & ob & Hu' & _ & _ & ->).
  rewrite Hu in Hu'. injection Hu' as <-.
  set (D := toordinal (fromutc (get_current_timezone E) u)).
  destruct (midnight_fields (D + m) (Some (get_current_timezone E, oa)))
    as (Hda & Hta & _).
  destruct (midnight_fields (D + n) (Some (get_current_timezone E, ob)))
    as (Hdb & Htb & _).
  cbn zeta in Hda, Hdb, Hta, Htb. rewrite Hda, Hdb, Hta, Htb. cbn [wall].
  repeat split; lia.
Qed.

Lemma get_midnight_offsets_witness :
  wall (mkDt (at_clock 736434 0 0) (Some (east1, HOUR)))
  = wall (mkDt (at_clock 736430 0 0) (Some (east1, HOUR))) + (2 - -2) * DAY
  /\ toordinal (mkDt (at_clock 736434 0 0) (Some (east1, HOUR)))
     = toordinal (mkDt (at_clock 736430 0 0) (Some (east1, HOUR))) + (2 - -2)
  /\ time_of_day (mkDt (at_clock 736430 0 0) (Some (east1, HOUR))) = 0
  /\ time_of_day (mkDt (at_clock 736434 0 0) (Some (east1, HOUR))) = 0.
Proof.
  exact (get_midnight_offsets demo
           (mkDt (at_clock 736431 23 30) (Some (utc, 0)))
           (mkDt (at_clock 736430 0 0) (Some (east1, HOUR)))
           (mkDt (at_clock 736434 0 0) (Some (east1, HOUR)))
           (-2) 2 eq_refl eq_refl).
Defined.

(** X4.  How [get_midnight] fails and what it returns.  A current zone
    without [normalize] makes every call raise [AttributeError], although
    [localtime] accepts such a zone; an error of [localize] on the midnight
    reading reaches the caller, [KeyError] included; a value that is returned
    is aware, in the current zone, and reads 00:00:00. *)
Theorem get_midnight_outcomes (E : Env) :
  (has_normalize (get_current_timezone E) = false ->
     (forall t n, get_midnight E t n = Raise AttributeError)
     /\ (forall t u, instant t = Some u ->
           localtime t (PZone (get_current_timezone E))
           = Ret (fromutc (get_current_timezone E) u)))
  /\ (forall t n u e,
        has_normalize (get_current_timezone E) = true ->
        instant t = Some u ->
        localize (get_current_timezone E)
          ((toordinal (fromutc (get_current_timezone E) u) + n) * DAY)
        = Raise e ->
        get_midnight E t n = Raise e)
  /\ (forall t n r,
        get_midnight E t n = Ret r ->
        is_naive r = false
        /\ zone_of r = Some (get_current_timezone E)
        /\ time_of_day r = 0).
Proof.
  split; [| split].
  - intros Hn. split.
    + intros t n. unfold get_midnight. now rewrite Hn.
    + intros t u Hu. now apply localtime_zone.
  - intros t n u e Hn Hu Hl. unfold get_midnight, astimezone.
    rewrite Hn, Hu. cbn [bind]. rewrite normalize_fromutc. cbn [bind].
    unfold combine. rewrite toordinal_plus_days, Z.add_0_r.
    unfold make_aware, is_naive. cbn [tzinfo wall]. now rewrite Hl.
  - intros t n r Hr.
    destruct (get_midnight_inv E t n r Hr) as (u & o' & _ & _ & _ & ->).
    destruct (midnight_fields
                (toordinal (fromutc (get_current_timezone E) u) + n)
                (Some (get_current_timezone E, o'))) as (_ & Ht & _).
    repeat split. exact Ht.
Qed.

(** ** Further properties: normalisation *)

Lemma make_aware_inv (t : datetime) (tz : pyval) (d : datetime) :
  make_aware t tz = Ret d ->
  exists z o,
    tz = PZone z /\ is_naive t = true /\ localize z (wall t) = Ret o
    /\ d = mkDt (wall t) (Some (z, o)).
Proof.
  unfold make_aware. destruct tz as [| | | | z]; try discriminate.
  destruct (is_naive t); [| discriminate].
  destruct (localize z (wall t)) as [o|e] eqn:Hl; cbn [bind]; [| discriminate].
  intros [= <-]. now exists z, o.
Qed.

Lemma localtime_inv (t : datetime) (tz : pyval) (d : datetime) :
  localtime t tz = Ret d ->
  exists z u, tz = PZone z /\ instant t = Some u /\ d = fromutc z u.
Proof.
  unfold localtime, astimezone. destruct tz as [| | | | z]; try discriminate.
  destruct (instant t) as [u|]; [| discriminate]. cbn [bind].
  destruct (has_normalize z); [rewrite normalize_fromutc |];
    intros [= <-]; now exists z, u.
Qed.

(** The ways in which [convert_date] returns. *)
Lemma convert_date_inv (E : Env) (x : dateinput) (tz : pyval) (v : value) :
  convert_date E x tz = Ret v ->
  v = VFalse
  \/ exists t d,
       denotes E x t /\ v = VDatetime d
       /\ (if is_naive t
           then make_aware t (resolve_tz E tz)
           else localtime t (resolve_tz E tz)) = Ret d.
Proof.
  unfold convert_date.
  assert (Hin : exists r, r = match x with
                              | DDatetime d => Ret (Some d)
                              | DStr s => parse E s
                              end
                /\ forall t, r = Ret (Some t) -> denotes E x t).
  { eexists. split; [reflexivity |]. intros t Ht.
    destruct x as [s|d0]; simpl; [exact Ht | now injection Ht]. }
  destruct Hin as (r & <- & Hden).
  destruct r as [[t|]|e]; cbn [bind].
  - specialize (Hden t eq_refl).
    match goal with |- context [bind ?c _] => destruct c as [d|e] eqn:Hc end;
      cbn [bind try_except_KeyError].
    + intros [= <-]. right. now exists t, d.
    + destruct e; intros H; try discriminate H. injection H as <-. now left.
  - cbn. intros [= <-]. now left.
  - destruct e; cbn; intros H; try discriminate H. injection H as <-. now left.
Qed.

(** X5.  What leaves [convert_date]: it never raises [KeyError]; what it
    returns is [False] or an aware datetime; and [False] is also what comes
    back when the input was read but tagging it with the zone raised
    [KeyError]. *)
Theorem convert_date_outcomes (E : Env) (x : dateinput) (tz : pyval) :
  convert_date E x tz <> Raise KeyError
  /\ (forall v, convert_date E x tz = Ret v ->
        v = ParseFailure \/ exists d, v = VDatetime d /\ is_naive d = false)
  /\ (forall t z, denotes E x t -> tzinfo t = None ->
        resolve_tz E tz = PZone z ->
        localize z (wall t) = Raise KeyError ->
        convert_date E x tz = Ret ParseFailure).
Proof.
  split; [| split].
  - unfold convert_date, try_except_KeyError.
    match goal with |- match ?b with _ => _ end <> _ => destruct b as [v|e] end;
      [discriminate | destruct e; discriminate].
  - intros v Hv. destruct (convert_date_inv E x tz v Hv) as [-> | (t & d & _ & -> & Hd)];
      [now left | right]. exists d. split; [reflexivity |].
    destruct (is_naive t).
    + destruct (make_aware_inv _ _ _ Hd) as (z & o & _ & _ & _ & ->). reflexivity.
    + exact (localtime_aware _ _ _ Hd).
  - intros t z Hx Ht Hz Hl. rewrite (convert_date_denotes E x t tz Hx), Hz.
    unfold is_naive, make_aware, is_naive. rewrite Ht, Hl. reflexivity.
Qed.

(** X6.  Normalising twice is normalising once: a datetime that
    [convert_date] returned is returned unchanged when it is passed through
    [convert_date] again with the same [tz], provided the zone's tagging and
    conversion agree. *)
Theorem convert_date_idempotent (E : Env) (x : dateinput) (tz : pyval)
    (z : zone) (r : datetime) :
  resolve_tz E tz = PZone z ->
  localize_consistent z ->
  convert_date E x tz = Ret (VDatetime r) ->
  convert_date E (DDatetime r) tz = Ret (VDatetime r).
Proof.
  intros Hz Hcons Hr.
  destruct (convert_date_inv E x tz _ Hr) as [H | (t & d & _ & [= <-] & Hd)];
    [discriminate H |].
  rewrite Hz in Hd.
  assert (Hshape : exists u, instant r = Some u /\ fromutc z u = r).
  { destruct (is_naive t).
    - destruct (make_aware_inv _ _ _ Hd) as (z' & o & [= <-] & _ & Hl & ->).
      exists (wall t - o). split; [reflexivity |].
      unfold fromutc. cbn [wall]. rewrite (Hcons _ _ Hl). f_equal. lia.
    - destruct (localtime_inv _ _ _ Hd) as (z' & u & [= <-] & _ & ->).
      exists u. split; [apply instant_fromutc | reflexivity]. }
  destruct Hshape as (u & Hu & Hru).
  rewrite (convert_date_denotes E (DDatetime r) r tz eq_refl), Hz.
  assert (Haware : is_naive r = false) by (now rewrite <- Hru).
  rewrite Haware, (localtime_zone r z u Hu), Hru. reflexivity.
Qed.

Lemma convert_date_idempotent_witness :
  convert_date demo
    (DDatetime (mkDt (at_clock 736431 20 51) (Some (east1, HOUR))))
    (PBool false)
  = Ret (VDatetime (mkDt (at_clock 736431 20 51) (Some (east1, HOUR)))).
Proof.
  exact (convert_date_idempotent demo (DStr "2017-04-12 20:51") (PBool false)
           east1 (mkDt (at_clock 736431 20 51) (Some (east1, HOUR)))
           eq_refl east1_consistent eq_refl).
Defined.

(** An aware value is normalised through its instant alone. *)
Lemma convert_date_by_instant (E : Env) (a b : datetime) (tz : pyval) :
  is_naive a = false -> is_naive b = false -> instant a = instant b ->
  convert_date E (DDatetime a) tz = convert_date E (DDatetime b) tz.
Proof.
  intros Ha Hb Hi.
  rewrite (convert_date_denotes E (DDatetime a) a tz eq_refl).
  rewrite (convert_date_denotes E (DDatetime b) b tz eq_refl).
  rewrite Ha, Hb. unfold localtime, astimezone. now rewrite Hi.
Qed.

(** X7.  Conversions compose: an aware timestamp normalised into one zone
    and then into a second gives what normalising it into the second zone
    directly gives. *)
Theorem convert_date_composes (E : Env) (t r1 : datetime) (tz1 tz2 : pyval) :
  is_naive t = false ->
  convert_date E (DDatetime t) tz1 = Ret (VDatetime r1) ->
  convert_date E (DDatetime r1) tz2 = convert_date E (DDatetime t) tz2.
Proof.
  intros Ht Hr.
  destruct (convert_date_inv E _ tz1 _ Hr) as [H | (t' & d & Hden & [= <-] & Hd)];
    [discriminate H |].
  simpl in Hden; subst t'. rewrite Ht in Hd.
  destruct (localtime_inv _ _ _ Hd) as (z & u & _ & Hu & ->).
  apply convert_date_by_instant; [reflexivity | exact Ht |].
  now rewrite instant_fromutc.
Qed.

Lemma convert_date_composes_witness :
  convert_date demo (DDatetime (fromutc east1 (at_clock 736431 20 51)))
    (PZone spring)
  = convert_date demo (DDatetime demo_aware) (PZone spring).
Proof.
  exact (convert_date_composes demo demo_aware
           (fromutc east1 (at_clock 736431 20 51)) (PStr "local") (PZone spring)
           eq_refl eq_refl).
Defined.

(** ** Further properties: the current time *)

(** Without a format, what [date_now] returns is an aware datetime that
    denotes the instant of the UTC reading. *)
Lemma date_now_denotes_utcnow (E : Env) (local_tz tz : pyval) (v : value) :
  date_now E local_tz None tz = Ret v ->
  exists d, v = VDatetime d /\ instant d = Some (utcnow E) /\ is_naive d = false.
Proof.
  unfold date_now.
  match goal with |- context [bind ?r _] => destruct r as [d|e] eqn:Hr end;
    cbn [bind]; [| discriminate].
  intros [= <-]. exists d. split; [reflexivity |].
  match type of Hr with (if ?c then _ else _) = _ => destruct c end.
  - rewrite is_naive_utc_reading in Hr.
    destruct (localtime_inv _ _ _ Hr) as (z & u & _ & Hu & ->).
    rewrite instant_utc_reading in Hu. injection Hu as <-.
    split; [apply instant_fromutc | reflexivity].
  - injection Hr as <-. split; [apply instant_utc_reading | reflexivity].
Qed.

(** X8.  The zone specifier changes the representation, never the instant:
    whatever [local_tz] and [tz] are, a datetime returned by [date_now] is
    aware and denotes the instant of the UTC reading; for a zone object
    whose name is neither "utc", "UTC" nor a casing of "local" it is that
    reading expressed in the zone. *)
Theorem date_now_same_instant (E : Env) (local_tz tz : pyval) :
  (forall d, date_now E local_tz None tz = Ret (VDatetime d) ->
     instant d = Some (utcnow E) /\ is_naive d = false)
  /\ (forall z,
        str_in_tuple (tz_str z) ["utc"; "UTC"] = false ->
        (lower (tz_str z) =? "local") = false ->
        date_now E (PZone z) None PNone
        = Ret (VDatetime (fromutc z (utcnow E)))).
Proof.
  split.
  - intros d Hd.
    destruct (date_now_denotes_utcnow E local_tz tz _ Hd) as (d' & [= <-] & H).
    exact H.
  - intros z Hu Hl. unfold date_now.
    cbn [truthy is_None negb andb py_str in_true_markers].
    rewrite Hu, Hl. cbn [negb andb orb]. rewrite is_naive_utc_reading.
    now rewrite (localtime_zone _ z _ (instant_utc_reading E)).
Qed.

(** X9.  The keyword [tz] stands in for a missing [local_tz] and is ignored
    otherwise: with a true [local_tz] the value of [tz] does not matter, with
    a false one the call is the call with [tz] as the specifier. *)
Theorem date_now_tz_keyword (E : Env) (local_tz tz : pyval)
    (format : option string) :
  (truthy local_tz = true ->
     date_now E local_tz format tz = date_now E local_tz format PNone)
  /\ (truthy local_tz = false ->
        date_now E local_tz format tz = date_now E tz format PNone).
Proof.
  split; intros Hl; unfold date_now; rewrite ?Hl.
  - reflexivity.
  - destruct tz; cbn [is_None negb andb truthy];
      rewrite ?Hl, ?Bool.andb_false_r; reflexivity.
Qed.

(** ** Further properties: the formatter's inputs *)

(** X10.  The reference point: an empty string given as [dt2] is treated as
    no [dt2] at all, it is not handed to the parser; the reference point is
    then the current time, an aware datetime at the instant of the UTC
    reading whatever [tz2] is; any other string is normalised through
    [convert_date]. *)
Theorem delta_as_text_reference_point (E : Env) (dt1 : dateinput)
    (tz1 tz2 : pyval) (include : string) (include_zeros : bool) :
  delta_as_text E dt1 (Some (DStr "")) tz1 tz2 include include_zeros
  = delta_as_text E dt1 None tz1 tz2 include include_zeros
  /\ (forall v, second_point E None tz2 = Ret v ->
        exists d, v = VDatetime d /\ instant d = Some (utcnow E)
                  /\ is_naive d = false)
  /\ (forall c s,
        delta_as_text E dt1 (Some (DStr (String c s))) tz1 tz2 include
          include_zeros
        = (p1 <- convert_date E dt1 tz1 ;;
           p2 <- convert_date E (DStr (String c s)) tz2 ;;
           d <- relativedelta E p2 p1 ;;
           Ret (VStr (describe E d include include_zeros)))).
Proof.
  split; [reflexivity | split].
  - intros v. unfold second_point. apply date_now_denotes_utcnow.
  - intros c s. reflexivity.
Qed.

(** X11.  The text reads only the selected units: two deltas that agree on
    every selected unit give the same text, and a selector without any
    recognised letter gives the empty text. *)
Theorem describe_reads_selected_units (E : Env) (d d' : delta)
    (include : string) (include_zeros : bool) :
  ((forall u, selected include u = true -> unit_value d u = unit_value d' u) ->
   describe E d include include_zeros = describe E d' include include_zeros)
  /\ ((forall u, selected include u = false) ->
      describe E d include include_zeros = "").
Proof.
  split.
  - intros H.
    pose proof (H Years) as Hy. pose proof (H Months) as Hm.
    pose proof (H Days) as Hd. pose proof (H Hours) as Hh.
    pose proof (H Minutes) as Hi. simpl in Hy, Hm, Hd, Hh, Hi.
    unfold describe, append_unit.
    destruct (do_years include); [rewrite (Hy eq_refl) |];
    destruct (do_months include); [rewrite (Hm eq_refl) | | rewrite (Hm eq_refl) |];
    destruct (do_days include); try rewrite (Hd eq_refl);
    destruct (do_hours include); try rewrite (Hh eq_refl);
    destruct (do_minutes include); try rewrite (Hi eq_refl);
    reflexivity.
  - intros H.
    pose proof (H Years) as Hy. pose proof (H Months) as Hm.
    pose proof (H Days) as Hd. pose proof (H Hours) as Hh.
    pose proof (H Minutes) as Hi. simpl in Hy, Hm, Hd, Hh, Hi.
    unfold describe, append_unit. now rewrite Hy, Hm, Hd, Hh, Hi.
Qed.
